(** * Chassis of the Accton AS9817-64O platform

    A shallow embedding of
    [device/accton/x86_64-accton_as9817_64o-r0/sonic_platform/chassis.py]
    and the properties of its accessors.

    Python integers are [Z], strings are [string], dictionaries with integer
    or string keys are [gmap]s, except [SYSLED_MODES] whose iteration order is
    observed by [set_status_led] and which is therefore kept as an association
    list.  The [Chassis] object, the platform environment (files, sysfs nodes,
    hardware) and what was written to standard error form a [World]; every
    method is an action of a state-and-exception monad over it. *)

From stdpp Require Import base gmap strings list pretty.

Local Open Scope Z_scope.

(** ** Python results *)

(** The exceptions the module can let escape. [IndexError] is not among them:
    its only occurrence is caught inside [get_sfp]. *)
Inductive PyExn :=
| AttributeError (attr : string)
| UnboundLocalError (var : string).

Inductive PyResult (A : Type) :=
| Returned (a : A)
| Raised (e : PyExn).
Arguments Returned {A} a.
Arguments Raised {A} e.

(** ** Python list subscription *)

(** [l[i]] for an integer [i]: positions [0 .. len-1] count from the front,
    [-len .. -1] from the back, everything else is an [IndexError] ([None]). *)
Definition py_getitem {A : Type} (l : list A) (i : Z) : option A :=
  let n := Z.of_nat (length l) in
  if bool_decide (0 ≤ i) then l !! Z.to_nat i
  else if bool_decide (- n ≤ i) then l !! Z.to_nat (n + i)
  else None.

(** [x or "Unknown"] where [x] is [None] or a string: [None] and the empty
    string are the falsy values. *)
Definition or_default (x : option string) (d : string) : string :=
  match x with
  | Some s => if String.eqb s "" then d else s
  | None => d
  end.

(** [index in range(lo, hi)] for an integer [index]. *)
Definition in_range (index lo hi : Z) : bool :=
  bool_decide (lo ≤ index) && bool_decide (index < hi).

(** ** Sub-device collaborators

    The sub-device classes are consumed through their constructors only; an
    instance is represented by the arguments it was constructed with. *)

Record Sfp := Sfp_new { sfp_index : Z; sfp_name : string }.

Record Psu := Psu_new { psu_index : Z }.

Record Thermal := Thermal_new { thermal_index : Z }.

Record Component := Component_new { component_index : Z }.

(** [fandrawer_fan_list] is the attribute [_fan_list] of a drawer, which
    [Chassis.__initialize_fan] reads back. *)
Record FanDrawer (Fan : Type) :=
  FanDrawer_new { fandrawer_index : Z; fandrawer_fan_list : list Fan }.
Arguments FanDrawer_new {Fan} _ _.
Arguments fandrawer_index {Fan} _.
Arguments fandrawer_fan_list {Fan} _.

(** [SfpEvent(self._sfp_list)] keeps a reference to the chassis' own list,
    not a copy: the notifier is a handle, and the list it sees is the one
    the chassis holds at the time of the call. *)
Inductive SfpEvent := SfpEvent_on_sfp_list.

(** ** The platform: everything the module consumes

    [Env] is the state outside the [Chassis] object.  The fields are the
    methods of [APIHelper], the collaborators' constructors and methods, and
    the constants the module takes from [sonic_platform_base]. *)
Class Platform (Env : Type) := {
  (* APIHelper *)
  APIHelper_is_host : Env → bool;
  get_intf_name : Env → gmap Z string;
  read_txt_file : Env → string → option string;
  write_txt_file : Env → string → string → Env * bool;
  (* FanDrawer(fant_index)._fan_list *)
  Fan : Type;
  FanDrawer_fans : Z → list Fan;
  (* Tlv *)
  Tlv : Type;
  Tlv_new : Env → Tlv;
  Tlv_get_model : Tlv → string;
  Tlv_get_mac : Tlv → string;
  Tlv_get_pn : Tlv → string;
  Tlv_get_serial : Tlv → string;
  Tlv_get_revision : Tlv → string;
  Tlv_get_eeprom : Tlv → gmap string string;
  (* SfpEvent.get_sfp_event, on the list the notifier is bound to *)
  ChangeEvent : Type;
  get_sfp_event : Env → list Sfp → Z → Env * ChangeEvent;
  (* ChassisBase *)
  REBOOT_CAUSE_NON_HARDWARE : string;
  (* SfpBase *)
  SFP_PORT_TYPE_BIT_SFP : Z;
  SFP_PORT_TYPE_BIT_SFP_PLUS : Z;
  SFP_PORT_TYPE_BIT_SFP28 : Z;
  SFP_PORT_TYPE_BIT_QSFP : Z;
  SFP_PORT_TYPE_BIT_QSFP_PLUS : Z;
  SFP_PORT_TYPE_BIT_QSFP28 : Z;
  SFP_PORT_TYPE_BIT_QSFPDD : Z;
  SFP_PORT_TYPE_BIT_OSFP : Z;
}.

(** ** Module constants *)

Definition NUM_FAN_TRAY : Z := 4.
Definition NUM_PSU : Z := 2.
Definition NUM_THERMAL : Z := 13.
Definition NUM_PORT : Z := 66.
Definition NUM_COMPONENT : Z := 5.

Definition HOST_REBOOT_CAUSE_PATH : string := "/host/reboot-cause/".
Definition PMON_REBOOT_CAUSE_PATH : string :=
  "/usr/share/sonic/platform/api_files/reboot-cause/".
Definition REBOOT_CAUSE_FILE : string := "reboot-cause.txt".
Definition PREV_REBOOT_CAUSE_FILE : string := "previous-reboot-cause.txt".
Definition SYSLED_FNODE : string :=
  "/sys/devices/platform/as9817_64_led/led_alarm".
Definition SYSLED_MODES : list (string * string) :=
  [ ("0", "STATUS_LED_COLOR_OFF");
    ("10", "STATUS_LED_COLOR_RED") ].

(** [val in SYSLED_MODES] and [SYSLED_MODES[val]] in one lookup. *)
Fixpoint dict_get (d : list (string * string)) (key : string) : option string :=
  match d with
  | [] => None
  | (k, v) :: d' => if String.eqb k key then Some v else dict_get d' key
  end.

(** ** The call surface of the module

    One constructor per public method defined in [chassis.py]. *)
Inductive Call :=
| Call_get_name
| Call_get_presence
| Call_get_status
| Call_get_base_mac
| Call_get_model
| Call_get_serial
| Call_get_revision
| Call_get_system_eeprom_info
| Call_get_reboot_cause
| Call_get_change_event (timeout : Z)
| Call_get_sfp (index : Z)
| Call_get_port_or_cage_type (index : Z)
| Call_get_position_in_parent
| Call_is_replaceable
| Call_initizalize_system_led
| Call_get_status_led
| Call_set_status_led (color : string).

Section ChassisModel.
Context {Env : Type} `{!Platform Env}.

(** ** The Chassis object and the world around it

    The fields are the attributes the module reads or writes.  An attribute
    that does not exist yet is [None] (reading it raises [AttributeError]);
    for [_eeprom] this is also Python's [None], which [ChassisBase] stores
    there. *)
Record Chassis := {
  is_host : bool;
  config_data : gmap string string;
  _component_list : list Component;
  _thermal_list : list Thermal;
  _fan_list : list Fan;
  _fan_drawer_list : list (FanDrawer Fan);
  _psu_list : list Psu;
  _sfp_list : list Sfp;
  _eeprom : option Tlv;
  _sfpevent : option SfpEvent;
  sfp_module_initialized : option bool;
}.

Record World := {
  self : Chassis;
  env : Env;
  stderr : list string;
}.

(** ** State and exceptions *)

Definition M (A : Type) : Type := World → PyResult (A * World).

Definition ret {A : Type} (a : A) : M A := λ w, Returned (a, w).

Definition bind {A B : Type} (m : M A) (k : A → M B) : M B :=
  λ w, match m w with
       | Returned (a, w') => k a w'
       | Raised e => Raised e
       end.

Definition raise {A : Type} (e : PyExn) : M A := λ _, Raised e.

Local Notation "x <- m ;; k" := (bind m (λ x, k))
  (at level 100, m at next level, right associativity).
Local Notation "m ;; k" := (bind m (λ _, k))
  (at level 100, right associativity).

Definition gets {A : Type} (f : World → A) : M A := λ w, Returned (f w, w).

(** [self.attr] for an attribute that may be missing. *)
Definition getattr {A : Type} (attr : string) (f : Chassis → option A) : M A :=
  λ w, match f (self w) with
       | Some a => Returned (a, w)
       | None => Raised (AttributeError attr)
       end.

Definition update_self (f : Chassis → Chassis) : M unit :=
  λ w, Returned ((), {| self := f (self w); env := env w; stderr := stderr w |}).

Definition with_env (w : World) (e : Env) : World :=
  {| self := self w; env := e; stderr := stderr w |}.

Definition with_self (w : World) (c : Chassis) : World :=
  {| self := c; env := env w; stderr := stderr w |}.

Definition stderr_write (s : string) : M unit :=
  λ w, Returned ((), {| self := self w; env := env w; stderr := stderr w ++ [s] |}).

Definition api_read_txt_file (path : string) : M (option string) :=
  gets (λ w, read_txt_file (env w) path).

Definition api_write_txt_file (path value : string) : M bool :=
  λ w, let (e, ok) := write_txt_file (env w) path value in
       Returned (ok, with_env w e).

(** [for x in xs: body] *)
Fixpoint for_in {A : Type} (xs : list A) (body : A → M unit) : M unit :=
  match xs with
  | [] => ret ()
  | x :: xs' => body x ;; for_in xs' body
  end.

Definition range (n : Z) : list Z := seqZ 0 n.

(** ** Attribute assignment *)

Definition set__component_list (v : list Component) (c : Chassis) : Chassis :=
  {| is_host := is_host c; config_data := config_data c;
     _component_list := v; _thermal_list := _thermal_list c;
     _fan_list := _fan_list c; _fan_drawer_list := _fan_drawer_list c;
     _psu_list := _psu_list c; _sfp_list := _sfp_list c;
     _eeprom := _eeprom c; _sfpevent := _sfpevent c;
     sfp_module_initialized := sfp_module_initialized c |}.

Definition set__thermal_list (v : list Thermal) (c : Chassis) : Chassis :=
  {| is_host := is_host c; config_data := config_data c;
     _component_list := _component_list c; _thermal_list := v;
     _fan_list := _fan_list c; _fan_drawer_list := _fan_drawer_list c;
     _psu_list := _psu_list c; _sfp_list := _sfp_list c;
     _eeprom := _eeprom c; _sfpevent := _sfpevent c;
     sfp_module_initialized := sfp_module_initialized c |}.

Definition set__fan_list (v : list Fan) (c : Chassis) : Chassis :=
  {| is_host := is_host c; config_data := config_data c;
     _component_list := _component_list c; _thermal_list := _thermal_list c;
     _fan_list := v; _fan_drawer_list := _fan_drawer_list c;
     _psu_list := _psu_list c; _sfp_list := _sfp_list c;
     _eeprom := _eeprom c; _sfpevent := _sfpevent c;
     sfp_module_initialized := sfp_module_initialized c |}.

Definition set__fan_drawer_list (v : list (FanDrawer Fan)) (c : Chassis) : Chassis :=
  {| is_host := is_host c; config_data := config_data c;
     _component_list := _component_list c; _thermal_list := _thermal_list c;
     _fan_list := _fan_list c; _fan_drawer_list := v;
     _psu_list := _psu_list c; _sfp_list := _sfp_list c;
     _eeprom := _eeprom c; _sfpevent := _sfpevent c;
     sfp_module_initialized := sfp_module_initialized c |}.

Definition set__psu_list (v : list Psu) (c : Chassis) : Chassis :=
  {| is_host := is_host c; config_data := config_data c;
     _component_list := _component_list c; _thermal_list := _thermal_list c;
     _fan_list := _fan_list c; _fan_drawer_list := _fan_drawer_list c;
     _psu_list := v; _sfp_list := _sfp_list c;
     _eeprom := _eeprom c; _sfpevent := _sfpevent c;
     sfp_module_initialized := sfp_module_initialized c |}.

Definition set__sfp_list (v : list Sfp) (c : Chassis) : Chassis :=
  {| is_host := is_host c; config_data := config_data c;
     _component_list := _component_list c; _thermal_list := _thermal_list c;
     _fan_list := _fan_list c; _fan_drawer_list := _fan_drawer_list c;
     _psu_list := _psu_list c; _sfp_list := v;
     _eeprom := _eeprom c; _sfpevent := _sfpevent c;
     sfp_module_initialized := sfp_module_initialized c |}.

Definition set__eeprom (v : option Tlv) (c : Chassis) : Chassis :=
  {| is_host := is_host c; config_data := config_data c;
     _component_list := _component_list c; _thermal_list := _thermal_list c;
     _fan_list := _fan_list c; _fan_drawer_list := _fan_drawer_list c;
     _psu_list := _psu_list c; _sfp_list := _sfp_list c;
     _eeprom := v; _sfpevent := _sfpevent c;
     sfp_module_initialized := sfp_module_initialized c |}.

Definition set__sfpevent (v : option SfpEvent) (c : Chassis) : Chassis :=
  {| is_host := is_host c; config_data := config_data c;
     _component_list := _component_list c; _thermal_list := _thermal_list c;
     _fan_list := _fan_list c; _fan_drawer_list := _fan_drawer_list c;
     _psu_list := _psu_list c; _sfp_list := _sfp_list c;
     _eeprom := _eeprom c; _sfpevent := v;
     sfp_module_initialized := sfp_module_initialized c |}.

Definition set_sfp_module_initialized (v : option bool) (c : Chassis) : Chassis :=
  {| is_host := is_host c; config_data := config_data c;
     _component_list := _component_list c; _thermal_list := _thermal_list c;
     _fan_list := _fan_list c; _fan_drawer_list := _fan_drawer_list c;
     _psu_list := _psu_list c; _sfp_list := _sfp_list c;
     _eeprom := _eeprom c; _sfpevent := _sfpevent c;
     sfp_module_initialized := v |}.

(** ** Construction *)

Definition __initialize_sfp : M unit :=
  intf_name <- gets (λ w, get_intf_name (env w));;
  for_in (range NUM_PORT) (λ index,
    let sfp := Sfp_new index (default "Unknown" (intf_name !! (index + 1))) in
    update_self (λ c, set__sfp_list (_sfp_list c ++ [sfp]) c));;
  update_self (set__sfpevent (Some SfpEvent_on_sfp_list));;
  update_self (set_sfp_module_initialized (Some true)).

Definition __initialize_fan : M unit :=
  for_in (range NUM_FAN_TRAY) (λ fant_index,
    let fandrawer := FanDrawer_new fant_index (FanDrawer_fans fant_index) in
    update_self (λ c, set__fan_drawer_list (_fan_drawer_list c ++ [fandrawer]) c);;
    update_self (λ c, set__fan_list (_fan_list c ++ fandrawer_fan_list fandrawer) c)).

Definition __initialize_psu : M unit :=
  for_in (range NUM_PSU) (λ index,
    let psu := Psu_new index in
    update_self (λ c, set__psu_list (_psu_list c ++ [psu]) c)).

Definition __initialize_thermals : M unit :=
  for_in (range NUM_THERMAL) (λ index,
    let thermal := Thermal_new index in
    update_self (λ c, set__thermal_list (_thermal_list c ++ [thermal]) c)).

Definition __initialize_eeprom : M unit :=
  tlv <- gets (λ w, Tlv_new (env w));;
  update_self (set__eeprom (Some tlv)).

Definition __initialize_components : M unit :=
  for_in (range NUM_COMPONENT) (λ index,
    let component := Component_new index in
    update_self (λ c, set__component_list (_component_list c ++ [component]) c)).

(** The object after [ChassisBase.__init__(self)] and the three assignments
    that follow it: the base class creates every device list empty and
    [_eeprom] as [None]; [_sfpevent] and [sfp_module_initialized] are not
    attributes yet. *)
Definition Chassis_allocated (e : Env) : Chassis :=
  {| is_host := APIHelper_is_host e; config_data := ∅;
     _component_list := []; _thermal_list := [];
     _fan_list := []; _fan_drawer_list := [];
     _psu_list := []; _sfp_list := [];
     _eeprom := None; _sfpevent := None;
     sfp_module_initialized := None |}.

(** [Chassis()] in environment [e], with [err] already on standard error. *)
Definition __init__ (e : Env) (err : list string) : PyResult (unit * World) :=
  (__initialize_fan;;
   __initialize_psu;;
   __initialize_thermals;;
   __initialize_components;;
   __initialize_sfp;;
   __initialize_eeprom)
  {| self := Chassis_allocated e; env := e; stderr := err |}.

(** ** Accessors *)

Definition get_name : M string :=
  eeprom <- getattr "_eeprom" _eeprom;; ret (Tlv_get_model eeprom).

Definition get_presence : M bool := ret true.

Definition get_status : M bool := ret true.

Definition get_base_mac : M string :=
  eeprom <- getattr "_eeprom" _eeprom;; ret (Tlv_get_mac eeprom).

Definition get_model : M string :=
  eeprom <- getattr "_eeprom" _eeprom;; ret (Tlv_get_pn eeprom).

Definition get_serial : M string :=
  eeprom <- getattr "_eeprom" _eeprom;; ret (Tlv_get_serial eeprom).

Definition get_revision : M string :=
  eeprom <- getattr "_eeprom" _eeprom;; ret (Tlv_get_revision eeprom).

Definition get_system_eeprom_info : M (gmap string string) :=
  eeprom <- getattr "_eeprom" _eeprom;; ret (Tlv_get_eeprom eeprom).

(** The two file paths [get_reboot_cause] selects with [self.is_host]. *)
Definition reboot_cause_path (self_is_host : bool) : string :=
  if self_is_host
  then HOST_REBOOT_CAUSE_PATH +:+ REBOOT_CAUSE_FILE
  else PMON_REBOOT_CAUSE_PATH +:+ REBOOT_CAUSE_FILE.

Definition prev_reboot_cause_path (self_is_host : bool) : string :=
  if self_is_host
  then HOST_REBOOT_CAUSE_PATH +:+ PREV_REBOOT_CAUSE_FILE
  else PMON_REBOOT_CAUSE_PATH +:+ PREV_REBOOT_CAUSE_FILE.

(** [reboot_cause] is a local that is bound only inside the branches; the
    [elif] tests the path of the previous-cause file, as the source does. *)
Definition get_reboot_cause : M (string * string) :=
  let description := "None" in
  self_is_host <- gets (λ w, is_host (self w));;
  sw <- api_read_txt_file (reboot_cause_path self_is_host);;
  let sw_reboot_cause := or_default sw "Unknown" in
  prev <- api_read_txt_file (prev_reboot_cause_path self_is_host);;
  let prev_sw_reboot_cause := or_default prev "Unknown" in
  let '(reboot_cause, description) :=
    if negb (String.eqb sw_reboot_cause "Unknown")
    then (Some REBOOT_CAUSE_NON_HARDWARE, sw_reboot_cause)
    else if negb (String.eqb (prev_reboot_cause_path self_is_host) "Unknown")
    then (Some REBOOT_CAUSE_NON_HARDWARE, prev_sw_reboot_cause)
    else (None, description) in
  match reboot_cause with
  | Some cause => ret (cause, description)
  | None => raise (UnboundLocalError "reboot_cause")
  end.

(** [self._sfpevent.get_sfp_event(timeout)]: the notifier works on the list
    it was bound to, which is the chassis' current [_sfp_list]. *)
Definition SfpEvent_get_sfp_event (ev : SfpEvent) (timeout : Z) : M ChangeEvent :=
  λ w, let (e, r) := get_sfp_event (env w) (_sfp_list (self w)) timeout in
       Returned (r, with_env w e).

Definition get_change_event (timeout : Z) : M ChangeEvent :=
  initialized <- getattr "sfp_module_initialized" sfp_module_initialized;;
  (if negb initialized then __initialize_sfp else ret ());;
  sfpevent <- getattr "_sfpevent" _sfpevent;;
  SfpEvent_get_sfp_event sfpevent timeout.

Definition newline : string := String (Ascii.ascii_of_nat 10) "".

(** ["SFP index {} out of range (1-{})\n".format(index, len)] *)
Definition out_of_range_message (index : Z) (len : nat) : string :=
  "SFP index " +:+ pretty index +:+ " out of range (1-"
  +:+ pretty (Z.of_nat len) +:+ ")" +:+ newline.

Definition get_sfp (index : Z) : M (option Sfp) :=
  let sfp := None in
  initialized <- getattr "sfp_module_initialized" sfp_module_initialized;;
  (if negb initialized then __initialize_sfp else ret ());;
  sfp_list <- gets (λ w, _sfp_list (self w));;
  match py_getitem sfp_list (index - 1) with
  | Some s => ret (Some s)
  | None =>
      stderr_write (out_of_range_message index (length sfp_list));;
      ret sfp
  end.

Definition get_port_or_cage_type (index : Z) : M Z :=
  if in_range index 1 65
  then ret (Z.lor (Z.lor (Z.lor (Z.lor SFP_PORT_TYPE_BIT_QSFP SFP_PORT_TYPE_BIT_QSFP_PLUS)
                                SFP_PORT_TYPE_BIT_QSFP28) SFP_PORT_TYPE_BIT_QSFPDD)
                  SFP_PORT_TYPE_BIT_OSFP)
  else ret (Z.lor (Z.lor SFP_PORT_TYPE_BIT_SFP SFP_PORT_TYPE_BIT_SFP_PLUS)
                  SFP_PORT_TYPE_BIT_SFP28).

Definition get_position_in_parent : M Z := ret (-1).

Definition is_replaceable : M bool := ret false.

Definition initizalize_system_led : M bool := ret true.

Definition get_status_led : M string :=
  val <- api_read_txt_file SYSLED_FNODE;;
  ret (match val with
       | Some v => match dict_get SYSLED_MODES v with
                   | Some mode => mode
                   | None => "UNKNOWN"
                   end
       | None => "UNKNOWN"
       end).

(** The loop of [set_status_led]: the first key whose value is [color]. *)
Fixpoint find_mode (items : list (string * string)) (color : string)
    (mode : option string) : option string :=
  match items with
  | [] => mode
  | (key, val) :: items' =>
      if String.eqb val color then Some key else find_mode items' color mode
  end.

Definition set_status_led (color : string) : M bool :=
  let mode := find_mode SYSLED_MODES color None in
  match mode with
  | None => ret false
  | Some mode => api_write_txt_file SYSLED_FNODE mode
  end.

(** ** Calls and reachable worlds *)

Inductive Value :=
| V_bool (b : bool)
| V_int (z : Z)
| V_str (s : string)
| V_tuple (t : string * string)
| V_dict (d : gmap string string)
| V_sfp (sfp : option Sfp)
| V_event (ev : ChangeEvent).

Definition call (c : Call) : M Value :=
  match c with
  | Call_get_name => v <- get_name;; ret (V_str v)
  | Call_get_presence => v <- get_presence;; ret (V_bool v)
  | Call_get_status => v <- get_status;; ret (V_bool v)
  | Call_get_base_mac => v <- get_base_mac;; ret (V_str v)
  | Call_get_model => v <- get_model;; ret (V_str v)
  | Call_get_serial => v <- get_serial;; ret (V_str v)
  | Call_get_revision => v <- get_revision;; ret (V_str v)
  | Call_get_system_eeprom_info => v <- get_system_eeprom_info;; ret (V_dict v)
  | Call_get_reboot_cause => v <- get_reboot_cause;; ret (V_tuple v)
  | Call_get_change_event timeout => v <- get_change_event timeout;; ret (V_event v)
  | Call_get_sfp index => v <- get_sfp index;; ret (V_sfp v)
  | Call_get_port_or_cage_type index => v <- get_port_or_cage_type index;; ret (V_int v)
  | Call_get_position_in_parent => v <- get_position_in_parent;; ret (V_int v)
  | Call_is_replaceable => v <- is_replaceable;; ret (V_bool v)
  | Call_initizalize_system_led => v <- initizalize_system_led;; ret (V_bool v)
  | Call_get_status_led => v <- get_status_led;; ret (V_str v)
  | Call_set_status_led color => v <- set_status_led color;; ret (V_bool v)
  end.

(** The worlds a host process can observe for a chassis constructed in
    environment [e0]: the one the constructor returns, those a returned call
    leads to, and any of them after the environment changed on its own. *)
Inductive Reachable (e0 : Env) : World → Prop :=
| Reachable_init err w :
    __init__ e0 err = Returned ((), w) → Reachable e0 w
| Reachable_call w c v w' :
    Reachable e0 w → call c w = Returned (v, w') → Reachable e0 w'
| Reachable_env w e :
    Reachable e0 w → Reachable e0 (with_env w e).

(** Closed form of the object the constructor builds ([__init___returns]). *)
Definition Chassis_built (e : Env) : Chassis :=
  {| is_host := APIHelper_is_host e; config_data := ∅;
     _component_list := Component_new <$> range NUM_COMPONENT;
     _thermal_list := Thermal_new <$> range NUM_THERMAL;
     _fan_list := concat (FanDrawer_fans <$> range NUM_FAN_TRAY);
     _fan_drawer_list :=
       (λ i, FanDrawer_new i (FanDrawer_fans i)) <$> range NUM_FAN_TRAY;
     _psu_list := Psu_new <$> range NUM_PSU;
     _sfp_list :=
       (λ i, Sfp_new i (default "Unknown" (get_intf_name e !! (i + 1))))
         <$> range NUM_PORT;
     _eeprom := Some (Tlv_new e);
     _sfpevent := Some SfpEvent_on_sfp_list;
     sfp_module_initialized := Some true |}.

(** The lengths of the five device lists: fan drawers, PSUs, thermals,
    components, transceivers. *)
Definition collection_lengths (c : Chassis) : list nat :=
  [ length (_fan_drawer_list c); length (_psu_list c); length (_thermal_list c);
    length (_component_list c); length (_sfp_list c) ].

End ChassisModel.

Arguments Chassis Env {_}.
Arguments World Env {_}.

(** ** A concrete platform

    Files are a map from path to content; reading is lookup, writing always
    succeeds and stores the value.  Two interface names are known, each fan
    drawer carries two fans, and the bit constants are those of [SfpBase]. *)
#[global] Instance files_platform : Platform (gmap string string) := {|
  APIHelper_is_host := λ _, true;
  get_intf_name := λ _, {[ 1 := "Ethernet0"; 2 := "Ethernet8" ]};
  read_txt_file := λ fs path, fs !! path;
  write_txt_file := λ fs path value, (<[path := value]> fs, true);
  Fan := Z * Z;
  FanDrawer_fans := λ i, [(i, 0); (i, 1)];
  Tlv := unit;
  Tlv_new := λ _, ();
  Tlv_get_model := λ _, "AS9817-64O";
  Tlv_get_mac := λ _, "00:11:22:33:44:55";
  Tlv_get_pn := λ _, "FP5ZZ9817000A";
  Tlv_get_serial := λ _, "981764O0001";
  Tlv_get_revision := λ _, "1";
  Tlv_get_eeprom := λ _, ∅;
  ChangeEvent := bool * gmap Z string;
  get_sfp_event := λ fs _ _, (fs, (true, ∅));
  REBOOT_CAUSE_NON_HARDWARE := "Non-Hardware";
  SFP_PORT_TYPE_BIT_SFP := 0x2;
  SFP_PORT_TYPE_BIT_SFP_PLUS := 0x8;
  SFP_PORT_TYPE_BIT_SFP28 := 0x100;
  SFP_PORT_TYPE_BIT_QSFP := 0x10;
  SFP_PORT_TYPE_BIT_QSFP_PLUS := 0x40;
  SFP_PORT_TYPE_BIT_QSFP28 := 0x80;
  SFP_PORT_TYPE_BIT_QSFPDD := 0x800;
  SFP_PORT_TYPE_BIT_OSFP := 0x1000;
|}.

(** A freshly booted switch: no reboot-cause file, the LED node reads "0". *)
Definition files_at_boot : gmap string string :=
  {[ SYSLED_FNODE := "0" ]}.

(** After a software reboot whose cause was not recorded. *)
Definition files_cause_unknown : gmap string string :=
  {[ reboot_cause_path true := "Unknown";
     prev_reboot_cause_path true := "Kernel Panic" ]}.

(** The chassis constructed on each of them, nothing written to standard
    error yet. *)
Definition world_at_boot : World (gmap string string) :=
  {| self := Chassis_built files_at_boot; env := files_at_boot; stderr := [] |}.

Definition world_cause_unknown : World (gmap string string) :=
  {| self := Chassis_built files_cause_unknown; env := files_cause_unknown;
     stderr := [] |}.

(** [world_at_boot] once [set_status_led("STATUS_LED_COLOR_RED")] returned. *)
Definition world_led_red : World (gmap string string) :=
  with_env world_at_boot (<[SYSLED_FNODE := "10"]> files_at_boot).

(** After a reboot requested by the operator. *)
Definition files_cause_recorded : gmap string string :=
  {[ reboot_cause_path true := "User issued 'reboot' command";
     prev_reboot_cause_path true := "Kernel Panic" ]}.

Definition world_cause_recorded : World (gmap string string) :=
  {| self := Chassis_built files_cause_recorded; env := files_cause_recorded;
     stderr := [] |}.

(** * Properties *)

(** ** Python subscription and truthiness *)

Lemma py_getitem_front {A : Type} (l : list A) (i : Z) :
  0 ≤ i → py_getitem l i = l !! Z.to_nat i.
Proof. intros Hi. unfold py_getitem. by rewrite bool_decide_eq_true_2. Qed.

Lemma py_getitem_back {A : Type} (l : list A) (i : Z) :
  - Z.of_nat (length l) ≤ i < 0 →
  py_getitem l i = l !! Z.to_nat (Z.of_nat (length l) + i).
Proof.
  intros [Hlo Hhi]. unfold py_getitem.
  rewrite bool_decide_eq_false_2 by lia. by rewrite bool_decide_eq_true_2.
Qed.

Lemma py_getitem_None {A : Type} (l : list A) (i : Z) :
  py_getitem l i = None ↔ i < - Z.of_nat (length l) ∨ Z.of_nat (length l) ≤ i.
Proof.
  unfold py_getitem. repeat case_bool_decide; rewrite ?lookup_ge_None.
  - lia.
  - lia.
  - split; [lia | done].
Qed.

Lemma or_default_nonempty (s d : string) : s ≠ "" → or_default (Some s) d = s.
Proof.
  intros Hs. unfold or_default.
  destruct (String.eqb_spec s "") as [->|_]; [done | reflexivity].
Qed.

Lemma in_range_spec (index lo hi : Z) : in_range index lo hi = true ↔ lo ≤ index < hi.
Proof.
  unfold in_range. rewrite andb_true_iff, !bool_decide_eq_true. reflexivity.
Qed.

Section ChassisFacts.
Context {Env : Type} `{!Platform Env}.

Implicit Types (w : World Env) (c : Chassis Env) (e : Env).

(** ** Loops that append to a list of the object *)

Lemma for_in_update {A : Type} (f : A → Chassis Env → Chassis Env)
    (body : A → World Env → PyResult (unit * World Env)) (xs : list A) w :
  (∀ x w', body x w' = Returned ((), with_self w' (f x (self w')))) →
  for_in xs body w = Returned ((), with_self w (foldl (λ c x, f x c) (self w) xs)).
Proof.
  intros Hbody. revert w.
  induction xs as [|x xs IH]; intros w; simpl.
  - by destruct w.
  - unfold bind. rewrite Hbody, IH. reflexivity.
Qed.

Ltac fold_append :=
  let c := fresh "c" in
  let xs := fresh "xs" in
  let IH := fresh "IH" in
  intros xs; induction xs as [|? xs IH]; intros c; simpl;
  [ destruct c; simpl; rewrite ?app_nil_r; reflexivity
  | rewrite IH; destruct c; simpl; rewrite <- ?app_assoc; reflexivity ].

Lemma foldl_append_sfp (g : Z → Sfp) (xs : list Z) :
  ∀ c, foldl (λ c i, set__sfp_list (_sfp_list c ++ [g i]) c) c xs
  = set__sfp_list (_sfp_list c ++ (g <$> xs)) c.
Proof. revert xs. fold_append. Qed.

Lemma foldl_append_psu (xs : list Z) :
  ∀ c, foldl (λ c i, set__psu_list (_psu_list c ++ [Psu_new i]) c) c xs
  = set__psu_list (_psu_list c ++ (Psu_new <$> xs)) c.
Proof. revert xs. fold_append. Qed.

Lemma foldl_append_thermal (xs : list Z) :
  ∀ c, foldl (λ c i, set__thermal_list (_thermal_list c ++ [Thermal_new i]) c) c xs
  = set__thermal_list (_thermal_list c ++ (Thermal_new <$> xs)) c.
Proof. revert xs. fold_append. Qed.

Lemma foldl_append_component (xs : list Z) :
  ∀ c, foldl (λ c i, set__component_list (_component_list c ++ [Component_new i]) c) c xs
  = set__component_list (_component_list c ++ (Component_new <$> xs)) c.
Proof. revert xs. fold_append. Qed.

Lemma foldl_append_fan (xs : list Z) :
  ∀ c, foldl (λ c i,
           let fandrawer := FanDrawer_new i (FanDrawer_fans i) in
           let c' := set__fan_drawer_list (_fan_drawer_list c ++ [fandrawer]) c in
           set__fan_list (_fan_list c' ++ fandrawer_fan_list fandrawer) c') c xs
  = set__fan_list (_fan_list c ++ concat (FanDrawer_fans <$> xs))
      (set__fan_drawer_list
         (_fan_drawer_list c ++ ((λ i, FanDrawer_new i (FanDrawer_fans i)) <$> xs)) c).
Proof. revert xs. fold_append. Qed.

(** ** What each initialiser does to the object *)

Lemma __initialize_sfp_spec w :
  __initialize_sfp w
  = Returned ((), with_self w
      (set_sfp_module_initialized (Some true)
         (set__sfpevent (Some SfpEvent_on_sfp_list)
            (set__sfp_list
               (_sfp_list (self w)
                ++ ((λ i, Sfp_new i (default "Unknown" (get_intf_name (env w) !! (i + 1))))
                      <$> range NUM_PORT))
               (self w))))).
Proof.
  unfold __initialize_sfp, bind, gets.
  rewrite (for_in_update (λ i c, set__sfp_list
             (_sfp_list c ++ [Sfp_new i (default "Unknown" (get_intf_name (env w) !! (i + 1)))]) c))
    by reflexivity.
  rewrite (foldl_append_sfp (λ i, Sfp_new i (default "Unknown" (get_intf_name (env w) !! (i + 1))))).
  reflexivity.
Qed.

Lemma __initialize_fan_spec w :
  __initialize_fan w
  = Returned ((), with_self w
      (set__fan_list (_fan_list (self w) ++ concat (FanDrawer_fans <$> range NUM_FAN_TRAY))
         (set__fan_drawer_list
            (_fan_drawer_list (self w)
             ++ ((λ i, FanDrawer_new i (FanDrawer_fans i)) <$> range NUM_FAN_TRAY))
            (self w)))).
Proof.
  unfold __initialize_fan.
  rewrite (for_in_update (λ i c,
             let fandrawer := FanDrawer_new i (FanDrawer_fans i) in
             let c' := set__fan_drawer_list (_fan_drawer_list c ++ [fandrawer]) c in
             set__fan_list (_fan_list c' ++ fandrawer_fan_list fandrawer) c'))
    by reflexivity.
  by rewrite foldl_append_fan.
Qed.

Lemma __initialize_psu_spec w :
  __initialize_psu w
  = Returned ((), with_self w
      (set__psu_list (_psu_list (self w) ++ (Psu_new <$> range NUM_PSU)) (self w))).
Proof.
  unfold __initialize_psu.
  rewrite (for_in_update (λ i c, set__psu_list (_psu_list c ++ [Psu_new i]) c))
    by reflexivity.
  by rewrite foldl_append_psu.
Qed.

Lemma __initialize_thermals_spec w :
  __initialize_thermals w
  = Returned ((), with_self w
      (set__thermal_list (_thermal_list (self w) ++ (Thermal_new <$> range NUM_THERMAL))
         (self w))).
Proof.
  unfold __initialize_thermals.
  rewrite (for_in_update (λ i c, set__thermal_list (_thermal_list c ++ [Thermal_new i]) c))
    by reflexivity.
  by rewrite foldl_append_thermal.
Qed.

Lemma __initialize_components_spec w :
  __initialize_components w
  = Returned ((), with_self w
      (set__component_list
         (_component_list (self w) ++ (Component_new <$> range NUM_COMPONENT)) (self w))).
Proof.
  unfold __initialize_components.
  rewrite (for_in_update (λ i c,
             set__component_list (_component_list c ++ [Component_new i]) c))
    by reflexivity.
  by rewrite foldl_append_component.
Qed.

(** The constructor returns, and the object it leaves is [Chassis_built]. *)
Lemma __init___returns e err :
  __init__ e err
  = Returned ((), {| self := Chassis_built e; env := e; stderr := err |}).
Proof.
  unfold __init__, bind.
  rewrite __initialize_fan_spec, __initialize_psu_spec, __initialize_thermals_spec,
    __initialize_components_spec, __initialize_sfp_spec.
  reflexivity.
Qed.

(** ** The accessors, one by one *)

Lemma prev_reboot_cause_path_not_Unknown (b : bool) :
  String.eqb (prev_reboot_cause_path b) "Unknown" = false.
Proof. by destruct b. Qed.

(** [get_reboot_cause] always returns, with the non-hardware cause; the
    description is chosen by comparing the first file's text with "Unknown". *)
Lemma get_reboot_cause_returns w :
  get_reboot_cause w
  = Returned
      ((REBOOT_CAUSE_NON_HARDWARE,
        let sw := or_default (read_txt_file (env w) (reboot_cause_path (is_host (self w))))
                    "Unknown" in
        if String.eqb sw "Unknown"
        then or_default (read_txt_file (env w) (prev_reboot_cause_path (is_host (self w))))
               "Unknown"
        else sw), w).
Proof.
  unfold get_reboot_cause, bind, gets, api_read_txt_file, gets. simpl.
  rewrite prev_reboot_cause_path_not_Unknown. simpl.
  by destruct (String.eqb _ "Unknown").
Qed.

Lemma set_status_led_returns color w :
  ∃ ok w', set_status_led color w = Returned (ok, w') ∧ self w' = self w.
Proof.
  unfold set_status_led. destruct (find_mode _ _ _) as [mode|].
  - unfold api_write_txt_file. destruct (write_txt_file _ _ _) as [e' ok]. eauto.
  - unfold ret. eauto.
Qed.

(** Once the flag is set, [get_sfp] is one subscription of the list. *)
Lemma get_sfp_initialized index w :
  sfp_module_initialized (self w) = Some true →
  get_sfp index w
  = match py_getitem (_sfp_list (self w)) (index - 1) with
    | Some sfp => Returned (Some sfp, w)
    | None =>
        Returned (None,
                  {| self := self w; env := env w;
                     stderr := stderr w
                               ++ [out_of_range_message index (length (_sfp_list (self w)))] |})
    end.
Proof.
  intros Hflag. unfold get_sfp, bind, getattr. rewrite Hflag. simpl.
  by destruct (py_getitem _ _).
Qed.

Lemma get_change_event_initialized timeout w :
  sfp_module_initialized (self w) = Some true →
  _sfpevent (self w) = Some SfpEvent_on_sfp_list →
  get_change_event timeout w
  = let (e, r) := get_sfp_event (env w) (_sfp_list (self w)) timeout in
    Returned (r, with_env w e).
Proof.
  intros Hflag Hev. unfold get_change_event, bind, getattr.
  rewrite Hflag. simpl. rewrite Hev. reflexivity.
Qed.

(** ** Calls on a constructed chassis: they return and leave the object as
    it is *)

Lemma call_on_built e0 (op : Call) w :
  self w = Chassis_built e0 →
  ∃ v w', call op w = Returned (v, w') ∧ self w' = self w.
Proof.
  intros Hself.
  assert (sfp_module_initialized (self w) = Some true) as Hflag by by rewrite Hself.
  assert (_sfpevent (self w) = Some SfpEvent_on_sfp_list) as Hev by by rewrite Hself.
  assert (_eeprom (self w) = Some (Tlv_new e0)) as Hee by by rewrite Hself.
  destruct op; unfold call, bind;
    try (unfold get_name, get_base_mac, get_model, get_serial, get_revision,
           get_system_eeprom_info, bind, getattr; rewrite Hee; simpl; by eauto);
    try (simpl; by eauto).
  - rewrite get_reboot_cause_returns. simpl. eauto.
  - rewrite get_change_event_initialized by done.
    destruct (get_sfp_event _ _ _) as [e r]. simpl. eauto.
  - rewrite get_sfp_initialized by done.
    destruct (py_getitem _ _); simpl; eauto.
  - unfold get_port_or_cage_type. destruct (in_range _ _ _); simpl; eauto.
  - destruct (set_status_led_returns color w) as (ok & w' & -> & Hw'). simpl. eauto.
Qed.

Lemma Reachable_self e0 w : Reachable e0 w → self w = Chassis_built e0.
Proof.
  induction 1 as [err w Hinit | w op v w' _ IH Hcall | w e _ IH].
  - rewrite __init___returns in Hinit. by injection Hinit as <-.
  - destruct (call_on_built e0 op w IH) as (v' & w'' & Hc & Hs).
    rewrite Hc in Hcall. injection Hcall as _ <-. by rewrite Hs.
  - exact IH.
Qed.

(** ** The transceiver list of a constructed chassis *)

Lemma built_sfp_list_length e : length (_sfp_list (Chassis_built e)) = 66%nat.
Proof.
  unfold Chassis_built, range. cbn [_sfp_list].
  by rewrite length_fmap, length_seqZ.
Qed.

Lemma built_sfp_list_lookup e (n : nat) :
  (n < 66)%nat →
  _sfp_list (Chassis_built e) !! n
  = Some (Sfp_new (Z.of_nat n)
            (default "Unknown" (get_intf_name e !! (Z.of_nat n + 1)))).
Proof.
  intros Hn. unfold Chassis_built, range. cbn [_sfp_list].
  rewrite list_lookup_fmap, lookup_seqZ_lt by (unfold NUM_PORT; lia).
  reflexivity.
Qed.

(** Indices [-65 .. 0] are accepted too: the subscript [index - 1] is then
    negative and counts from the end of the list. *)
Lemma get_sfp_wraps e0 w index :
  Reachable e0 w → -65 ≤ index ≤ 0 →
  get_sfp index w
  = Returned (Some (Sfp_new (65 + index)
                      (default "Unknown" (get_intf_name e0 !! (66 + index)))), w).
Proof.
  intros Hw Hi. apply Reachable_self in Hw.
  rewrite get_sfp_initialized by by rewrite Hw.
  rewrite Hw, py_getitem_back by (rewrite built_sfp_list_length; lia).
  rewrite built_sfp_list_length, built_sfp_list_lookup by lia.
  rewrite Z2Nat.id by lia.
  by replace (Z.of_nat 66 + (index - 1)) with (65 + index) by lia;
     replace (65 + index + 1) with (66 + index) by lia.
Qed.

(** Only below [-65] and above [66] does the subscript raise [IndexError]:
    the message goes to standard error and [None] is returned. *)
Lemma get_sfp_rejects e0 w index :
  Reachable e0 w → index < -65 ∨ 66 < index →
  get_sfp index w
  = Returned (None, {| self := self w; env := env w;
                       stderr := stderr w ++ [out_of_range_message index 66] |}).
Proof.
  intros Hw Hi. apply Reachable_self in Hw.
  rewrite get_sfp_initialized by by rewrite Hw.
  assert (py_getitem (_sfp_list (self w)) (index - 1) = None) as ->.
  { apply py_getitem_None. rewrite Hw, built_sfp_list_length. lia. }
  by rewrite Hw, built_sfp_list_length.
Qed.

(** ** Transceiver accessor *)

(** C1, at the index the code gets wrong.  The claim is that every index
    outside 1..66 is reported on standard error and yields [None].  On a
    freshly constructed chassis [get_sfp 0] instead returns the last
    transceiver, the one built with index 65 for port 66, and leaves standard
    error untouched: the subscript [0 - 1] is Python's "last element". *)
Theorem get_sfp_index_0_returns_last_sfp e err :
  match __init__ e err with
  | Returned (_, w) =>
      get_sfp 0 w
      = Returned (Some (Sfp_new 65 (default "Unknown" (get_intf_name e !! 66))), w)
  | Raised _ => False
  end.
Proof.
  destruct (__init__ e err) as [[[] w]|ex] eqn:Hinit.
  - apply (get_sfp_wraps e w 0); [by apply (Reachable_init e err) | lia].
  - by rewrite __init___returns in Hinit.
Qed.

(** C5: for every index i with 1 <= i <= 66, [get_sfp i] returns the element
    at 0-based position i-1 of the internal transceiver list, which is the
    transceiver constructed with index i-1 and the interface name of port i;
    nothing else changes. *)
Theorem get_sfp_one_based e0 w index :
  Reachable e0 w → 1 ≤ index ≤ 66 →
  ∃ sfp,
    _sfp_list (self w) !! Z.to_nat (index - 1) = Some sfp
    ∧ sfp = Sfp_new (index - 1) (default "Unknown" (get_intf_name e0 !! index))
    ∧ get_sfp index w = Returned (Some sfp, w).
Proof.
  intros Hw Hi. apply Reachable_self in Hw.
  assert (_sfp_list (self w) !! Z.to_nat (index - 1)
          = Some (Sfp_new (index - 1) (default "Unknown" (get_intf_name e0 !! index))))
    as Hlookup.
  { rewrite Hw, built_sfp_list_lookup by lia. rewrite Z2Nat.id by lia.
    by replace (index - 1 + 1) with index by lia. }
  eexists. split; [exact Hlookup | split; [reflexivity |]].
  rewrite get_sfp_initialized by by rewrite Hw.
  by rewrite py_getitem_front, Hlookup by lia.
Qed.

(** ** Construction and the five collections *)

(** C4: in every world reachable from construction the chassis holds 4 fan
    drawers, 2 PSUs, 13 thermals, 5 components and 66 transceivers, each list
    being one collaborator per index of its hardware count, in order; every
    call of the module returns and leaves these lengths as they are. *)
Theorem collections_fixed e0 w :
  Reachable e0 w →
  (_fan_drawer_list (self w)
     = (λ i, FanDrawer_new i (FanDrawer_fans i)) <$> seqZ 0 NUM_FAN_TRAY
   ∧ _psu_list (self w) = Psu_new <$> seqZ 0 NUM_PSU
   ∧ _thermal_list (self w) = Thermal_new <$> seqZ 0 NUM_THERMAL
   ∧ _component_list (self w) = Component_new <$> seqZ 0 NUM_COMPONENT
   ∧ _sfp_list (self w)
     = (λ i, Sfp_new i (default "Unknown" (get_intf_name e0 !! (i + 1))))
         <$> seqZ 0 NUM_PORT)
  ∧ collection_lengths (self w) = [4; 2; 13; 5; 66]%nat
  ∧ ∀ op, ∃ v w',
      call op w = Returned (v, w')
      ∧ collection_lengths (self w') = collection_lengths (self w).
Proof.
  intros Hw. pose proof (Reachable_self e0 w Hw) as Hself.
  split; [by rewrite Hself|]. split.
  - rewrite Hself. unfold collection_lengths, Chassis_built, range.
    cbn [_fan_drawer_list _psu_list _thermal_list _component_list _sfp_list].
    by rewrite !length_fmap, !length_seqZ.
  - intros op. destruct (call_on_built e0 op w Hself) as (v & w' & Hcall & Hs).
    exists v, w'. by rewrite Hs.
Qed.

(** ** The initialisation flag and the event notifier *)

(** C8, as the code has it: the flag [sfp_module_initialized] tracks the
    initialisation of the transceiver list, but it is the constructor that
    builds the list and the notifier bound to it and sets the flag.  In every
    reachable world the flag is [True] and the notifier exists, so
    [get_change_event] and [get_sfp] never take their initialising branch:
    both return and leave the chassis object as it is. *)
Theorem sfp_initialized_by_constructor e0 w :
  Reachable e0 w →
  sfp_module_initialized (self w) = Some true
  ∧ _sfpevent (self w) = Some SfpEvent_on_sfp_list
  ∧ (∀ timeout, ∃ ev w',
       get_change_event timeout w = Returned (ev, w') ∧ self w' = self w)
  ∧ (∀ index, ∃ sfp w',
       get_sfp index w = Returned (sfp, w') ∧ self w' = self w).
Proof.
  intros Hw. apply Reachable_self in Hw.
  assert (sfp_module_initialized (self w) = Some true) as Hflag by by rewrite Hw.
  assert (_sfpevent (self w) = Some SfpEvent_on_sfp_list) as Hev by by rewrite Hw.
  repeat split; [done | done | |].
  - intros timeout. rewrite get_change_event_initialized by done.
    destruct (get_sfp_event _ _ _) as [e r]. by exists r, (with_env w e).
  - intros index. rewrite get_sfp_initialized by done.
    destruct (py_getitem _ _); eauto.
Qed.

(** The branch the two accessors would take on a chassis whose flag is
    [False]: they run [__initialize_sfp] first. *)
Lemma get_sfp_uninitialized index w :
  sfp_module_initialized (self w) = Some false →
  get_sfp index w
  = bind __initialize_sfp (λ _,
      bind (gets (λ w, _sfp_list (self w))) (λ sfp_list,
        match py_getitem sfp_list (index - 1) with
        | Some s => ret (Some s)
        | None =>
            bind (stderr_write (out_of_range_message index (length sfp_list)))
              (λ _, ret None)
        end)) w.
Proof.
  intros Hflag. unfold get_sfp. unfold bind at 1, getattr. rewrite Hflag.
  reflexivity.
Qed.

(** ** Reboot cause *)

(** C2: when neither the reboot-cause file nor the previous-reboot-cause
    file can be read, [get_reboot_cause] does not raise; it returns the
    non-hardware cause with the description "Unknown". *)
Theorem get_reboot_cause_files_missing w :
  read_txt_file (env w) (reboot_cause_path (is_host (self w))) = None →
  read_txt_file (env w) (prev_reboot_cause_path (is_host (self w))) = None →
  get_reboot_cause w = Returned ((REBOOT_CAUSE_NON_HARDWARE, "Unknown"), w).
Proof.
  intros Hcur Hprev. rewrite get_reboot_cause_returns, Hcur, Hprev. reflexivity.
Qed.

(** C3, as the code has it: the description is the text of the current
    reboot-cause file when that text is readable, non-empty and not the word
    "Unknown"; otherwise it is the text of the previous-reboot-cause file, or
    "Unknown" when that one is missing or empty.  The cause is
    [REBOOT_CAUSE_NON_HARDWARE] in every case. *)
Theorem get_reboot_cause_branches w :
  (∀ content,
     read_txt_file (env w) (reboot_cause_path (is_host (self w))) = Some content →
     content ≠ "" → content ≠ "Unknown" →
     get_reboot_cause w = Returned ((REBOOT_CAUSE_NON_HARDWARE, content), w))
  ∧ (read_txt_file (env w) (reboot_cause_path (is_host (self w))) = None
     ∨ read_txt_file (env w) (reboot_cause_path (is_host (self w))) = Some ""
     ∨ read_txt_file (env w) (reboot_cause_path (is_host (self w))) = Some "Unknown" →
     (∀ content,
        read_txt_file (env w) (prev_reboot_cause_path (is_host (self w))) = Some content →
        content ≠ "" →
        get_reboot_cause w = Returned ((REBOOT_CAUSE_NON_HARDWARE, content), w))
     ∧ (read_txt_file (env w) (prev_reboot_cause_path (is_host (self w))) = None
        ∨ read_txt_file (env w) (prev_reboot_cause_path (is_host (self w))) = Some "" →
        get_reboot_cause w = Returned ((REBOOT_CAUSE_NON_HARDWARE, "Unknown"), w))).
Proof.
  rewrite get_reboot_cause_returns. split.
  - intros content -> Hne Hunk. rewrite or_default_nonempty by done. simpl.
    by rewrite (proj2 (String.eqb_neq content "Unknown")).
  - intros Hcur.
    assert (or_default (read_txt_file (env w) (reboot_cause_path (is_host (self w))))
              "Unknown" = "Unknown") as ->.
    { by destruct Hcur as [-> | [-> | ->]]. }
    simpl. split.
    + intros content -> Hne. by rewrite or_default_nonempty.
    + by intros [-> | ->].
Qed.

(** ** Status LED *)

Lemma dict_get_SYSLED_MODES (v : string) :
  dict_get SYSLED_MODES v
  = if String.eqb "0" v then Some "STATUS_LED_COLOR_OFF"
    else if String.eqb "10" v then Some "STATUS_LED_COLOR_RED"
    else None.
Proof. reflexivity. Qed.

Lemma find_mode_SYSLED_MODES (color : string) :
  find_mode SYSLED_MODES color None
  = if String.eqb "STATUS_LED_COLOR_OFF" color then Some "0"
    else if String.eqb "STATUS_LED_COLOR_RED" color then Some "10"
    else None.
Proof. reflexivity. Qed.

(** C6: [get_status_led] maps the text read from the status-LED node:
    "0" to "STATUS_LED_COLOR_OFF", "10" to "STATUS_LED_COLOR_RED", and every
    other text, as well as a node that cannot be read, to "UNKNOWN". *)
Theorem get_status_led_mapping w :
  (read_txt_file (env w) SYSLED_FNODE = Some "0" →
   get_status_led w = Returned ("STATUS_LED_COLOR_OFF", w))
  ∧ (read_txt_file (env w) SYSLED_FNODE = Some "10" →
     get_status_led w = Returned ("STATUS_LED_COLOR_RED", w))
  ∧ (read_txt_file (env w) SYSLED_FNODE ≠ Some "0" →
     read_txt_file (env w) SYSLED_FNODE ≠ Some "10" →
     get_status_led w = Returned ("UNKNOWN", w)).
Proof.
  unfold get_status_led, bind, api_read_txt_file, gets, ret.
  repeat split.
  - by intros ->.
  - by intros ->.
  - intros Hoff Hred.
    destruct (read_txt_file (env w) SYSLED_FNODE) as [v|]; [|reflexivity].
    rewrite dict_get_SYSLED_MODES.
    destruct (String.eqb_spec "0" v) as [<-|_]; [done|].
    destruct (String.eqb_spec "10" v) as [<-|_]; [done|]. reflexivity.
Qed.

Lemma find_mode_unsupported color :
  color ≠ "STATUS_LED_COLOR_OFF" → color ≠ "STATUS_LED_COLOR_RED" →
  find_mode SYSLED_MODES color None = None.
Proof.
  intros Hoff Hred. rewrite find_mode_SYSLED_MODES.
  destruct (String.eqb_spec "STATUS_LED_COLOR_OFF" color) as [<-|_]; [done|].
  destruct (String.eqb_spec "STATUS_LED_COLOR_RED" color) as [<-|_]; [done|].
  reflexivity.
Qed.

(** C7: for a color that is neither "STATUS_LED_COLOR_OFF" nor
    "STATUS_LED_COLOR_RED", [set_status_led] returns [False] and the world,
    the status-LED node included, is exactly what it was: nothing is
    written. *)
Theorem set_status_led_unsupported color w :
  color ≠ "STATUS_LED_COLOR_OFF" → color ≠ "STATUS_LED_COLOR_RED" →
  set_status_led color w = Returned (false, w).
Proof.
  intros Hoff Hred. unfold set_status_led.
  by rewrite find_mode_unsupported.
Qed.

Lemma dict_get_SYSLED_MODES_Some (mode color : string) :
  dict_get SYSLED_MODES mode = Some color →
  (mode = "0" ∧ color = "STATUS_LED_COLOR_OFF")
  ∨ (mode = "10" ∧ color = "STATUS_LED_COLOR_RED").
Proof.
  rewrite dict_get_SYSLED_MODES.
  destruct (String.eqb_spec "0" mode) as [<-|_].
  - intros [= <-]. by left.
  - destruct (String.eqb_spec "10" mode) as [<-|_]; [| done].
    intros [= <-]. by right.
Qed.

(** C9: for a supported color, if [set_status_led color] returns [True]
    and the write it made is one the node keeps (reading the node back in the
    world the call left gives the text that call wrote), the next
    [get_status_led] returns that color.  Nothing is assumed about texts the
    call did not write. *)
Theorem set_then_get_status_led color w w' :
  color = "STATUS_LED_COLOR_OFF" ∨ color = "STATUS_LED_COLOR_RED" →
  set_status_led color w = Returned (true, w') →
  (∀ mode, dict_get SYSLED_MODES mode = Some color →
           write_txt_file (env w) SYSLED_FNODE mode = (env w', true) →
           read_txt_file (env w') SYSLED_FNODE = Some mode) →
  get_status_led w' = Returned (color, w').
Proof.
  intros Hcolor Hset Hkeeps.
  unfold set_status_led, api_write_txt_file in Hset.
  unfold get_status_led, bind, api_read_txt_file, gets, ret.
  destruct Hcolor as [-> | ->]; simpl in Hset;
    destruct (write_txt_file (env w) SYSLED_FNODE _) as [e' ok] eqn:Hwrite;
    injection Hset as -> <-; cbn [env with_env] in Hkeeps |- *.
  - by rewrite (Hkeeps "0" eq_refl Hwrite).
  - by rewrite (Hkeeps "10" eq_refl Hwrite).
Qed.

(** ** Port type *)

(** C10: [get_port_or_cage_type] never fails and has two outcomes: the
    QSFP-family mask (QSFP | QSFP+ | QSFP28 | QSFP-DD | OSFP) for every index
    in 1..64, the SFP-family mask (SFP | SFP+ | SFP28) for every other
    integer. *)
Theorem get_port_or_cage_type_partition index w :
  (1 ≤ index ≤ 64 →
   get_port_or_cage_type index w
   = Returned (Z.lor (Z.lor (Z.lor (Z.lor SFP_PORT_TYPE_BIT_QSFP
                                          SFP_PORT_TYPE_BIT_QSFP_PLUS)
                                   SFP_PORT_TYPE_BIT_QSFP28)
                            SFP_PORT_TYPE_BIT_QSFPDD)
                     SFP_PORT_TYPE_BIT_OSFP, w))
  ∧ (¬ 1 ≤ index ≤ 64 →
     get_port_or_cage_type index w
     = Returned (Z.lor (Z.lor SFP_PORT_TYPE_BIT_SFP SFP_PORT_TYPE_BIT_SFP_PLUS)
                       SFP_PORT_TYPE_BIT_SFP28, w)).
Proof.
  unfold get_port_or_cage_type.
  destruct (in_range index 1 65) eqn:Hin.
  - apply in_range_spec in Hin. split; [done | lia].
  - split; [| done]. intros Hi.
    assert (in_range index 1 65 = true) as Hin' by (apply in_range_spec; lia).
    congruence.
Qed.

(** * Further properties of the module *)

(** ** [get_sfp] over all integers *)

Lemma get_sfp_in_range e0 w index :
  Reachable e0 w → 1 ≤ index ≤ 66 →
  get_sfp index w
  = Returned (Some (Sfp_new (index - 1)
                      (default "Unknown" (get_intf_name e0 !! index))), w).
Proof.
  intros Hw Hi. apply Reachable_self in Hw.
  rewrite get_sfp_initialized by by rewrite Hw.
  rewrite Hw, py_getitem_front, built_sfp_list_lookup by lia.
  rewrite Z2Nat.id by lia.
  by replace (index - 1 + 1) with index by lia.
Qed.

(** X1: on a constructed chassis [get_sfp] splits the integers in two.  For
    index < -65 or index > 66 it returns [None], appends the single line
    "SFP index <index> out of range (1-66)" to standard error and changes
    nothing else; for every index in -65..66 it returns a transceiver and
    leaves the world, standard error included, as it was. *)
Theorem get_sfp_accepts_or_reports e0 w index :
  Reachable e0 w →
  (index < -65 ∨ 66 < index →
   get_sfp index w
   = Returned (None, {| self := self w; env := env w;
                        stderr := stderr w ++ [out_of_range_message index 66] |}))
  ∧ (-65 ≤ index ≤ 66 → ∃ sfp, get_sfp index w = Returned (Some sfp, w)).
Proof.
  intros Hw. split.
  - intros Hi. by apply (get_sfp_rejects e0).
  - intros Hi. destruct (decide (index ≤ 0)) as [Hneg|Hpos].
    + eexists. apply (get_sfp_wraps e0); [done | lia].
    + eexists. apply (get_sfp_in_range e0); [done | lia].
Qed.

(** X2: on a constructed chassis an index in -65..0 is an alias of the
    index 66 higher: [get_sfp index] and [get_sfp (index + 66)] return the
    same transceiver and the same world. *)
Theorem get_sfp_nonpositive_alias e0 w index :
  Reachable e0 w → -65 ≤ index ≤ 0 →
  get_sfp index w = get_sfp (index + 66) w.
Proof.
  intros Hw Hi.
  rewrite (get_sfp_wraps e0), (get_sfp_in_range e0) by (done || lia).
  by replace (index + 66 - 1) with (65 + index) by lia;
     replace (index + 66) with (66 + index) by lia.
Qed.

(** ** Construction *)

(** X4: in every reachable world the flat fan list is the concatenation of
    the fan lists of the drawers, in drawer order, and the four drawers carry
    the indices 0, 1, 2, 3. *)
Theorem fan_list_follows_drawers e0 w :
  Reachable e0 w →
  _fan_list (self w) = concat (fandrawer_fan_list <$> _fan_drawer_list (self w))
  ∧ fandrawer_index <$> _fan_drawer_list (self w) = [0; 1; 2; 3].
Proof.
  intros Hw. apply Reachable_self in Hw. rewrite Hw.
  split; reflexivity.
Qed.

(** X5: [__initialize_sfp] always returns and does not reset the list: it
    appends the 66 transceivers, named from the current environment, to
    whatever the list holds, so the list grows by 66 on every run.  It sets
    the flag, installs the notifier and touches neither the environment nor
    standard error. *)
Theorem __initialize_sfp_appends w :
  ∃ w',
    __initialize_sfp w = Returned ((), w')
    ∧ _sfp_list (self w')
      = _sfp_list (self w)
        ++ ((λ i, Sfp_new i (default "Unknown" (get_intf_name (env w) !! (i + 1))))
              <$> seqZ 0 66)
    ∧ length (_sfp_list (self w')) = (length (_sfp_list (self w)) + 66)%nat
    ∧ sfp_module_initialized (self w') = Some true
    ∧ _sfpevent (self w') = Some SfpEvent_on_sfp_list
    ∧ env w' = env w ∧ stderr w' = stderr w.
Proof.
  eexists. split; [apply __initialize_sfp_spec |].
  cbn [self env stderr with_self set_sfp_module_initialized set__sfpevent
       set__sfp_list _sfp_list sfp_module_initialized _sfpevent].
  repeat split.
  unfold range, NUM_PORT. by rewrite length_app, length_fmap, length_seqZ.
Qed.

(** X3: what [get_sfp] returns on a constructed chassis does not depend on
    the current environment: the transceivers and their names were fixed at
    construction, and replacing the environment changes neither the value
    returned nor what is written to standard error. *)
Theorem get_sfp_ignores_environment e0 w e index :
  Reachable e0 w →
  ∃ sfp err,
    get_sfp index w
    = Returned (sfp, {| self := self w; env := env w; stderr := err |})
    ∧ get_sfp index (with_env w e)
      = Returned (sfp, {| self := self w; env := e; stderr := err |}).
Proof.
  intros Hw.
  assert (sfp_module_initialized (self w) = Some true) as Hflag
    by by rewrite (Reachable_self e0 w Hw).
  rewrite !get_sfp_initialized by done.
  cbn [self env stderr with_env].
  destruct (py_getitem (_sfp_list (self w)) (index - 1)) as [sfp|].
  - exists (Some sfp), (stderr w). by destruct w.
  - by eexists None, _.
Qed.

(** ** Reboot cause, for every content of the two files *)

Lemma or_default_not_empty (x : option string) (d : string) :
  d ≠ "" → or_default x d ≠ "".
Proof.
  intros Hd. unfold or_default. destruct x as [s|]; [|done].
  by destruct (String.eqb_spec s "").
Qed.

(** X7: whatever the two files hold, [get_reboot_cause] returns: the
    branch that would leave [reboot_cause] unbound cannot be taken.  The
    cause is always [REBOOT_CAUSE_NON_HARDWARE], the description is never the
    empty string, and the world is not changed. *)
Theorem get_reboot_cause_always_returns w :
  ∃ description,
    get_reboot_cause w = Returned ((REBOOT_CAUSE_NON_HARDWARE, description), w)
    ∧ description ≠ "".
Proof.
  rewrite get_reboot_cause_returns. eexists. split; [reflexivity |].
  cbv zeta. destruct (String.eqb _ "Unknown"); by apply or_default_not_empty.
Qed.

(** X8: the directory is chosen once, by [is_host] as sampled at
    construction: "/host/reboot-cause/" on the host and
    "/usr/share/sonic/platform/api_files/reboot-cause/" otherwise.  Two
    worlds of the same chassis whose environments agree on
    "reboot-cause.txt" and "previous-reboot-cause.txt" in that directory get
    the same answer, whatever else differs. *)
Theorem get_reboot_cause_reads_two_files e0 w1 w2 :
  Reachable e0 w1 → Reachable e0 w2 →
  read_txt_file (env w1)
    ((if APIHelper_is_host e0 then "/host/reboot-cause/"
      else "/usr/share/sonic/platform/api_files/reboot-cause/") +:+ "reboot-cause.txt")
  = read_txt_file (env w2)
      ((if APIHelper_is_host e0 then "/host/reboot-cause/"
        else "/usr/share/sonic/platform/api_files/reboot-cause/") +:+ "reboot-cause.txt") →
  read_txt_file (env w1)
    ((if APIHelper_is_host e0 then "/host/reboot-cause/"
      else "/usr/share/sonic/platform/api_files/reboot-cause/")
     +:+ "previous-reboot-cause.txt")
  = read_txt_file (env w2)
      ((if APIHelper_is_host e0 then "/host/reboot-cause/"
        else "/usr/share/sonic/platform/api_files/reboot-cause/")
       +:+ "previous-reboot-cause.txt") →
  ∃ result,
    get_reboot_cause w1 = Returned (result, w1)
    ∧ get_reboot_cause w2 = Returned (result, w2).
Proof.
  intros Hw1 Hw2 Hcur Hprev.
  apply Reachable_self in Hw1. apply Reachable_self in Hw2.
  rewrite !get_reboot_cause_returns, Hw1, Hw2.
  cbn [is_host Chassis_built].
  assert (∀ b : bool,
            reboot_cause_path b
            = (if b then "/host/reboot-cause/"
               else "/usr/share/sonic/platform/api_files/reboot-cause/")
              +:+ "reboot-cause.txt") as Hpath by by intros [].
  assert (∀ b : bool,
            prev_reboot_cause_path b
            = (if b then "/host/reboot-cause/"
               else "/usr/share/sonic/platform/api_files/reboot-cause/")
              +:+ "previous-reboot-cause.txt") as Hppath by by intros [].
  rewrite !Hpath, !Hppath, Hcur, Hprev.
  eexists. split; reflexivity.
Qed.

(** ** Status LED: the table read in both directions *)

(** X9: the two lookups in [SYSLED_MODES] are inverse to each other: the
    loop of [set_status_led] finds the key [mode] for [color] exactly when
    the dictionary maps [mode] to [color]. *)
Theorem SYSLED_MODES_lookups_inverse (mode color : string) :
  find_mode SYSLED_MODES color None = Some mode
  ↔ dict_get SYSLED_MODES mode = Some color.
Proof.
  rewrite find_mode_SYSLED_MODES, dict_get_SYSLED_MODES.
  destruct (String.eqb_spec "STATUS_LED_COLOR_OFF" color) as [<-|Hoff],
           (String.eqb_spec "0" mode) as [<-|Hzero]; try (split; congruence).
  - split; [congruence |].
    destruct (String.eqb_spec "10" mode) as [<-|_]; discriminate.
  - destruct (String.eqb_spec "STATUS_LED_COLOR_RED" color) as [<-|Hred];
      split; congruence.
  - destruct (String.eqb_spec "STATUS_LED_COLOR_RED" color) as [<-|Hred],
             (String.eqb_spec "10" mode) as [<-|Hten]; split; congruence.
Qed.

Lemma find_mode_Some_dict_get (mode color : string) :
  find_mode SYSLED_MODES color None = Some mode →
  dict_get SYSLED_MODES mode = Some color.
Proof.
  rewrite find_mode_SYSLED_MODES.
  destruct (String.eqb_spec "STATUS_LED_COLOR_OFF" color) as [<-|_].
  - by intros [= <-].
  - destruct (String.eqb_spec "STATUS_LED_COLOR_RED" color) as [<-|_]; [| done].
    by intros [= <-].
Qed.

(** X10: [set_status_led] never raises and touches nothing but the
    environment.  When it returns [True], a write to the status-LED node was
    made and succeeded, and the text written is a key of [SYSLED_MODES] that
    maps to the requested color. *)
Theorem set_status_led_True_means_written color w :
  ∃ ok w',
    set_status_led color w = Returned (ok, w')
    ∧ self w' = self w ∧ stderr w' = stderr w
    ∧ (ok = true →
       ∃ mode, dict_get SYSLED_MODES mode = Some color
               ∧ write_txt_file (env w) SYSLED_FNODE mode = (env w', true)).
Proof.
  unfold set_status_led.
  destruct (find_mode SYSLED_MODES color None) as [mode|] eqn:Hmode.
  - unfold api_write_txt_file.
    destruct (write_txt_file (env w) SYSLED_FNODE mode) as [e ok] eqn:Hwrite.
    exists ok, (with_env w e). repeat split.
    intros ->. exists mode. split; [| exact Hwrite].
    by apply find_mode_Some_dict_get.
  - exists false, w. by repeat split.
Qed.

(** X11: reading the LED and setting what was read writes the node's own
    text back.  If [get_status_led] returns a color other than "UNKNOWN",
    the node holds some text, and [set_status_led] with that color is one
    write of exactly that text to the node, whose result it returns. *)
Theorem get_then_set_status_led_writes_back color w :
  get_status_led w = Returned (color, w) → color ≠ "UNKNOWN" →
  ∃ text,
    read_txt_file (env w) SYSLED_FNODE = Some text
    ∧ set_status_led color w
      = (let (e, ok) := write_txt_file (env w) SYSLED_FNODE text in
         Returned (ok, with_env w e)).
Proof.
  unfold get_status_led, bind, api_read_txt_file, gets, ret.
  intros Hget Hknown.
  destruct (read_txt_file (env w) SYSLED_FNODE) as [text|]; [| congruence].
  rewrite dict_get_SYSLED_MODES in Hget.
  exists text. split; [reflexivity |].
  unfold set_status_led. rewrite find_mode_SYSLED_MODES.
  destruct (decide ("0" = text)) as [<-|Hne0].
  { injection Hget as <-. reflexivity. }
  rewrite (proj2 (String.eqb_neq "0" text) Hne0) in Hget.
  destruct (decide ("10" = text)) as [<-|Hne10].
  { injection Hget as <-. reflexivity. }
  rewrite (proj2 (String.eqb_neq "10" text) Hne10) in Hget.
  congruence.
Qed.

(** ** Port type: the bits of the mask *)

Lemma land_lor_self_r (a b : Z) : Z.land (Z.lor a b) b = b.
Proof.
  apply Z.bits_inj'. intros n _. rewrite Z.land_spec, Z.lor_spec.
  by destruct (Z.testbit a n), (Z.testbit b n).
Qed.

Lemma land_lor_self_l (a b : Z) : Z.land (Z.lor a b) a = a.
Proof. rewrite Z.lor_comm. apply land_lor_self_r. Qed.

Lemma land_lor_keeps_l (a b c : Z) : Z.land a c = c → Z.land (Z.lor a b) c = c.
Proof.
  intros Hc. apply Z.bits_inj'. intros n _.
  assert (Z.testbit (Z.land a c) n = Z.testbit c n) as Hn by by rewrite Hc.
  rewrite Z.land_spec in Hn. rewrite Z.land_spec, Z.lor_spec.
  by destruct (Z.testbit a n), (Z.testbit b n), (Z.testbit c n).
Qed.

Ltac bit_is_set :=
  first [ apply land_lor_self_r
        | apply land_lor_self_l
        | apply land_lor_keeps_l; bit_is_set ].

(** X12: the mask [get_port_or_cage_type] returns passes the test a caller
    makes with [mask & bit == bit]: for an index in 1..64 each of the QSFP,
    QSFP+, QSFP28, QSFP-DD and OSFP bits is set in it, for every other index
    each of the SFP, SFP+ and SFP28 bits, whatever values the [SfpBase]
    constants have. *)
Theorem get_port_or_cage_type_bits_set index w :
  ∃ mask,
    get_port_or_cage_type index w = Returned (mask, w)
    ∧ (1 ≤ index ≤ 64 →
       Forall (λ bit, Z.land mask bit = bit)
         [SFP_PORT_TYPE_BIT_QSFP; SFP_PORT_TYPE_BIT_QSFP_PLUS;
          SFP_PORT_TYPE_BIT_QSFP28; SFP_PORT_TYPE_BIT_QSFPDD;
          SFP_PORT_TYPE_BIT_OSFP])
    ∧ (¬ 1 ≤ index ≤ 64 →
       Forall (λ bit, Z.land mask bit = bit)
         [SFP_PORT_TYPE_BIT_SFP; SFP_PORT_TYPE_BIT_SFP_PLUS;
          SFP_PORT_TYPE_BIT_SFP28]).
Proof.
  unfold get_port_or_cage_type.
  destruct (in_range index 1 65) eqn:Hin; eexists; (split; [reflexivity |]).
  - apply in_range_spec in Hin. split; [| lia].
    intros _. repeat constructor; bit_is_set.
  - split.
    + intros Hi. assert (in_range index 1 65 = true) by (apply in_range_spec; lia).
      congruence.
    + intros _. repeat constructor; bit_is_set.
Qed.

(** ** Identity fields *)

(** X13: on a constructed chassis the identity accessors never raise and
    read the EEPROM object created at construction, not the current
    environment: [get_name] is its model, [get_model] its part number,
    [get_base_mac], [get_serial], [get_revision] and
    [get_system_eeprom_info] its MAC, serial, revision and full content.  The
    world is not changed. *)
Theorem identity_fields_from_construction_eeprom e0 w :
  Reachable e0 w →
  get_name w = Returned (Tlv_get_model (Tlv_new e0), w)
  ∧ get_base_mac w = Returned (Tlv_get_mac (Tlv_new e0), w)
  ∧ get_model w = Returned (Tlv_get_pn (Tlv_new e0), w)
  ∧ get_serial w = Returned (Tlv_get_serial (Tlv_new e0), w)
  ∧ get_revision w = Returned (Tlv_get_revision (Tlv_new e0), w)
  ∧ get_system_eeprom_info w = Returned (Tlv_get_eeprom (Tlv_new e0), w).
Proof.
  intros Hw. apply Reachable_self in Hw.
  assert (_eeprom (self w) = Some (Tlv_new e0)) as Hee by by rewrite Hw.
  unfold get_name, get_base_mac, get_model, get_serial, get_revision,
    get_system_eeprom_info, bind, getattr, ret.
  rewrite Hee. by repeat split.
Qed.

(** ** Change events *)

(** X14: on a constructed chassis [get_change_event] never initialises
    and never raises: it is one poll of the notifier over the chassis' own 66
    transceivers with the caller's timeout, it returns what the notifier
    returned, and the only part of the world that can differ afterwards is
    the environment the notifier left. *)
Theorem get_change_event_polls_notifier e0 w timeout :
  Reachable e0 w →
  length (_sfp_list (self w)) = 66%nat
  ∧ ∃ e ev,
      get_sfp_event (env w) (_sfp_list (self w)) timeout = (e, ev)
      ∧ get_change_event timeout w
        = Returned (ev, {| self := self w; env := e; stderr := stderr w |}).
Proof.
  intros Hw. apply Reachable_self in Hw.
  split; [by rewrite Hw, built_sfp_list_length |].
  rewrite get_change_event_initialized by by rewrite Hw.
  destruct (get_sfp_event (env w) (_sfp_list (self w)) timeout) as [e ev].
  by exists e, ev.
Qed.

(** ** What a call can change *)

(** X15: every call on a constructed chassis leaves the chassis object as
    it is.  Standard error changes only when [get_sfp] rejects its index
    (below -65 or above 66), by exactly the out-of-range line.  The
    environment can change only through [set_status_led] with one of the two
    supported colors or through [get_change_event]. *)
Theorem call_frame e0 w (op : Call) v w' :
  Reachable e0 w → call op w = Returned (v, w') →
  self w' = self w
  ∧ (stderr w' = stderr w
     ∨ ∃ index, op = Call_get_sfp index ∧ (index < -65 ∨ 66 < index)
                ∧ stderr w' = stderr w ++ [out_of_range_message index 66])
  ∧ (env w' = env w
     ∨ (∃ color, op = Call_set_status_led color
                 ∧ (color = "STATUS_LED_COLOR_OFF" ∨ color = "STATUS_LED_COLOR_RED"))
     ∨ ∃ timeout, op = Call_get_change_event timeout).
Proof.
  intros Hw Hcall. apply Reachable_self in Hw.
  assert (sfp_module_initialized (self w) = Some true) as Hflag by by rewrite Hw.
  assert (_sfpevent (self w) = Some SfpEvent_on_sfp_list) as Hev by by rewrite Hw.
  assert (_eeprom (self w) = Some (Tlv_new e0)) as Hee by by rewrite Hw.
  assert (length (_sfp_list (self w)) = 66%nat) as Hlen
    by by rewrite Hw, built_sfp_list_length.
  destruct op; unfold call, bind in Hcall;
    try (unfold get_name, get_base_mac, get_model, get_serial, get_revision,
           get_system_eeprom_info, bind, getattr in Hcall;
         rewrite Hee in Hcall; injection Hcall as _ <-; by auto);
    try (unfold get_presence, get_status, get_position_in_parent, is_replaceable,
           initizalize_system_led, ret in Hcall;
         injection Hcall as _ <-; by auto).
  - rewrite get_reboot_cause_returns in Hcall. injection Hcall as _ <-. by auto.
  - rewrite get_change_event_initialized in Hcall by done.
    destruct (get_sfp_event _ _ _) as [e ev]. injection Hcall as _ <-.
    split; [done | split; [by left | right; right; by eexists]].
  - rewrite get_sfp_initialized in Hcall by done.
    destruct (py_getitem (_sfp_list (self w)) (index - 1)) as [sfp|] eqn:Hget.
    + injection Hcall as _ <-. by auto.
    + injection Hcall as _ <-. apply py_getitem_None in Hget.
      rewrite Hlen in Hget |- *.
      split; [done | split; [right; exists index | by left]].
      split; [done | split; [lia | done]].
  - unfold get_port_or_cage_type in Hcall.
    destruct (in_range _ _ _); injection Hcall as _ <-; by auto.
  - unfold set_status_led in Hcall. rewrite find_mode_SYSLED_MODES in Hcall.
    destruct (String.eqb_spec "STATUS_LED_COLOR_OFF" color) as [Hoff|_];
      [| destruct (String.eqb_spec "STATUS_LED_COLOR_RED" color) as [Hred|_]].
    + unfold api_write_txt_file in Hcall.
      destruct (write_txt_file _ _ _) as [e ok]. injection Hcall as _ <-.
      split; [done | split; [by left | right; left; exists color; by auto]].
    + unfold api_write_txt_file in Hcall.
      destruct (write_txt_file _ _ _) as [e ok]. injection Hcall as _ <-.
      split; [done | split; [by left | right; left; exists color; by auto]].
    + injection Hcall as _ <-. by auto.
Qed.

End ChassisFacts.

(** * The properties at work on the concrete platform *)

Lemma get_sfp_one_based_witness :
  Reachable files_at_boot world_at_boot ∧ 1 ≤ 2 ≤ 66
  ∧ ∃ sfp,
      _sfp_list (self world_at_boot) !! Z.to_nat (2 - 1) = Some sfp
      ∧ sfp = Sfp_new (2 - 1) (default "Unknown" (get_intf_name files_at_boot !! 2))
      ∧ get_sfp 2 world_at_boot = Returned (Some sfp, world_at_boot).
Proof.
  assert (Reachable files_at_boot world_at_boot) as Hw.
  { apply (Reachable_init _ []). vm_compute. reflexivity. }
  assert (1 ≤ 2 ≤ 66) as Hi by lia.
  split; [exact Hw | split; [exact Hi |]].
  exact (get_sfp_one_based files_at_boot world_at_boot 2 Hw Hi).
Defined.

Lemma collections_fixed_witness :
  Reachable files_at_boot world_led_red
  ∧ collection_lengths (self world_led_red) = [4; 2; 13; 5; 66]%nat
  ∧ ∃ v w', call (Call_get_sfp 67) world_led_red = Returned (v, w')
            ∧ collection_lengths (self w') = collection_lengths (self world_led_red).
Proof.
  assert (Reachable files_at_boot world_led_red) as Hw.
  { apply (Reachable_call _ world_at_boot (Call_set_status_led "STATUS_LED_COLOR_RED")
             (V_bool true)).
    - apply (Reachable_init _ []). vm_compute. reflexivity.
    - vm_compute. reflexivity. }
  split; [exact Hw |].
  destruct (collections_fixed files_at_boot world_led_red Hw) as (_ & Hlen & Hcall).
  split; [exact Hlen | exact (Hcall (Call_get_sfp 67))].
Defined.

Lemma sfp_initialized_by_constructor_witness :
  Reachable files_at_boot world_at_boot
  ∧ sfp_module_initialized (self world_at_boot) = Some true
  ∧ _sfpevent (self world_at_boot) = Some SfpEvent_on_sfp_list.
Proof.
  assert (Reachable files_at_boot world_at_boot) as Hw.
  { apply (Reachable_init _ []). vm_compute. reflexivity. }
  split; [exact Hw |].
  destruct (sfp_initialized_by_constructor files_at_boot world_at_boot Hw)
    as (Hflag & Hev & _).
  split; [exact Hflag | exact Hev].
Defined.

(** C8 as stated fails: the chassis just constructed, before any call, already
    has its event notifier. *)
Lemma notifier_not_lazy_counterexample :
  ¬ (∀ w : World (gmap string string),
       __init__ files_at_boot [] = Returned ((), w) → _sfpevent (self w) = None).
Proof.
  intros Hlazy.
  specialize (Hlazy world_at_boot).
  assert (__init__ files_at_boot [] = Returned ((), world_at_boot)) as Hinit
    by (vm_compute; reflexivity).
  apply Hlazy in Hinit. discriminate Hinit.
Qed.

Lemma get_reboot_cause_files_missing_witness :
  read_txt_file (env world_at_boot) (reboot_cause_path (is_host (self world_at_boot))) = None
  ∧ read_txt_file (env world_at_boot)
      (prev_reboot_cause_path (is_host (self world_at_boot))) = None
  ∧ get_reboot_cause world_at_boot
    = Returned (("Non-Hardware", "Unknown"), world_at_boot).
Proof.
  assert (read_txt_file (env world_at_boot)
            (reboot_cause_path (is_host (self world_at_boot))) = None) as Hcur
    by (vm_compute; reflexivity).
  assert (read_txt_file (env world_at_boot)
            (prev_reboot_cause_path (is_host (self world_at_boot))) = None) as Hprev
    by (vm_compute; reflexivity).
  split; [exact Hcur | split; [exact Hprev |]].
  exact (get_reboot_cause_files_missing world_at_boot Hcur Hprev).
Defined.

(** C3 as stated fails: the current file holds readable, non-empty text, the
    word "Unknown", and the description returned is the text of the previous
    file. *)
Lemma get_reboot_cause_text_Unknown_counterexample :
  ¬ (∀ (w : World (gmap string string)) (content : string),
       read_txt_file (env w) (reboot_cause_path (is_host (self w))) = Some content →
       content ≠ "" →
       ∃ cause, get_reboot_cause w = Returned ((cause, content), w)).
Proof.
  intros Hclaim.
  destruct (Hclaim world_cause_unknown "Unknown") as [cause Hret].
  - vm_compute. reflexivity.
  - discriminate.
  - vm_compute in Hret. discriminate Hret.
Qed.

Lemma get_reboot_cause_branches_witness :
  get_reboot_cause world_cause_recorded
  = Returned (("Non-Hardware", "User issued 'reboot' command"), world_cause_recorded)
  ∧ get_reboot_cause world_cause_unknown
    = Returned (("Non-Hardware", "Kernel Panic"), world_cause_unknown)
  ∧ get_reboot_cause world_at_boot
    = Returned (("Non-Hardware", "Unknown"), world_at_boot).
Proof.
  split; [| split].
  - apply (proj1 (get_reboot_cause_branches world_cause_recorded)).
    + vm_compute. reflexivity.
    + discriminate.
    + discriminate.
  - apply (proj1 (proj2 (get_reboot_cause_branches world_cause_unknown)
                    (or_intror (or_intror eq_refl)))).
    + vm_compute. reflexivity.
    + discriminate.
  - apply (proj2 (proj2 (get_reboot_cause_branches world_at_boot)
                    (or_introl eq_refl))).
    left. vm_compute. reflexivity.
Defined.

Lemma get_status_led_mapping_witness :
  get_status_led world_at_boot = Returned ("STATUS_LED_COLOR_OFF", world_at_boot)
  ∧ get_status_led world_led_red = Returned ("STATUS_LED_COLOR_RED", world_led_red)
  ∧ get_status_led world_cause_unknown = Returned ("UNKNOWN", world_cause_unknown).
Proof.
  split; [| split].
  - apply (proj1 (get_status_led_mapping world_at_boot)). vm_compute. reflexivity.
  - apply (proj1 (proj2 (get_status_led_mapping world_led_red))).
    vm_compute. reflexivity.
  - apply (proj2 (proj2 (get_status_led_mapping world_cause_unknown)));
      vm_compute; discriminate.
Defined.

Lemma set_status_led_unsupported_witness :
  "STATUS_LED_COLOR_GREEN" ≠ "STATUS_LED_COLOR_OFF"
  ∧ "STATUS_LED_COLOR_GREEN" ≠ "STATUS_LED_COLOR_RED"
  ∧ set_status_led "STATUS_LED_COLOR_GREEN" world_at_boot
    = Returned (false, world_at_boot).
Proof.
  assert ("STATUS_LED_COLOR_GREEN" ≠ "STATUS_LED_COLOR_OFF") as Hoff by discriminate.
  assert ("STATUS_LED_COLOR_GREEN" ≠ "STATUS_LED_COLOR_RED") as Hred by discriminate.
  split; [exact Hoff | split; [exact Hred |]].
  exact (set_status_led_unsupported "STATUS_LED_COLOR_GREEN" world_at_boot Hoff Hred).
Defined.

Lemma set_then_get_status_led_witness :
  set_status_led "STATUS_LED_COLOR_RED" world_at_boot = Returned (true, world_led_red)
  ∧ get_status_led world_led_red = Returned ("STATUS_LED_COLOR_RED", world_led_red).
Proof.
  assert (set_status_led "STATUS_LED_COLOR_RED" world_at_boot
          = Returned (true, world_led_red)) as Hset by reflexivity.
  split; [exact Hset |].
  apply (set_then_get_status_led "STATUS_LED_COLOR_RED" world_at_boot world_led_red).
  - right. reflexivity.
  - exact Hset.
  - intros mode Hdict _.
    destruct (dict_get_SYSLED_MODES_Some mode _ Hdict) as [[_ Hcolor] | [-> _]].
    + discriminate Hcolor.
    + reflexivity.
Defined.

Lemma get_port_or_cage_type_partition_witness :
  get_port_or_cage_type 64 world_at_boot = Returned (0x18d0, world_at_boot)
  ∧ get_port_or_cage_type 65 world_at_boot = Returned (0x10a, world_at_boot)
  ∧ get_port_or_cage_type 0 world_at_boot = Returned (0x10a, world_at_boot).
Proof.
  split; [| split].
  - apply (proj1 (get_port_or_cage_type_partition 64 world_at_boot)). lia.
  - apply (proj2 (get_port_or_cage_type_partition 65 world_at_boot)). lia.
  - apply (proj2 (get_port_or_cage_type_partition 0 world_at_boot)). lia.
Defined.

(** * The further properties at work on the concrete platform *)

Lemma world_at_boot_reachable : Reachable files_at_boot world_at_boot.
Proof. apply (Reachable_init _ []). apply __init___returns. Qed.

Lemma world_led_red_reachable : Reachable files_at_boot world_led_red.
Proof. apply Reachable_env, world_at_boot_reachable. Qed.

Lemma get_sfp_accepts_or_reports_witness :
  get_sfp 67 world_at_boot
  = Returned (None, {| self := self world_at_boot; env := env world_at_boot;
                       stderr := stderr world_at_boot ++ [out_of_range_message 67 66] |})
  ∧ ∃ sfp, get_sfp (-65) world_at_boot = Returned (Some sfp, world_at_boot).
Proof.
  pose proof world_at_boot_reachable as Hw.
  split.
  - apply (proj1 (get_sfp_accepts_or_reports files_at_boot world_at_boot 67 Hw)). lia.
  - apply (proj2 (get_sfp_accepts_or_reports files_at_boot world_at_boot (-65) Hw)). lia.
Defined.

Lemma get_sfp_nonpositive_alias_witness :
  Reachable files_at_boot world_at_boot ∧ -65 ≤ -64 ≤ 0
  ∧ get_sfp (-64) world_at_boot = get_sfp (-64 + 66) world_at_boot.
Proof.
  pose proof world_at_boot_reachable as Hw.
  assert (-65 ≤ -64 ≤ 0) as Hi by lia.
  split; [exact Hw | split; [exact Hi |]].
  exact (get_sfp_nonpositive_alias files_at_boot world_at_boot (-64) Hw Hi).
Defined.

Lemma fan_list_follows_drawers_witness :
  Reachable files_at_boot world_led_red
  ∧ _fan_list (self world_led_red)
    = concat (fandrawer_fan_list <$> _fan_drawer_list (self world_led_red)).
Proof.
  pose proof world_led_red_reachable as Hw.
  split; [exact Hw |].
  exact (proj1 (fan_list_follows_drawers files_at_boot world_led_red Hw)).
Defined.

Lemma get_sfp_ignores_environment_witness :
  Reachable files_at_boot world_at_boot
  ∧ ∃ sfp err,
      get_sfp 70 world_at_boot
      = Returned (sfp, {| self := self world_at_boot; env := env world_at_boot;
                          stderr := err |})
      ∧ get_sfp 70 (with_env world_at_boot files_cause_unknown)
        = Returned (sfp, {| self := self world_at_boot; env := files_cause_unknown;
                            stderr := err |}).
Proof.
  pose proof world_at_boot_reachable as Hw.
  split; [exact Hw |].
  exact (get_sfp_ignores_environment files_at_boot world_at_boot files_cause_unknown 70 Hw).
Defined.

Lemma get_reboot_cause_reads_two_files_witness :
  ∃ result,
    get_reboot_cause world_at_boot = Returned (result, world_at_boot)
    ∧ get_reboot_cause world_led_red = Returned (result, world_led_red).
Proof.
  apply (get_reboot_cause_reads_two_files files_at_boot world_at_boot world_led_red).
  - exact world_at_boot_reachable.
  - exact world_led_red_reachable.
  - vm_compute. reflexivity.
  - vm_compute. reflexivity.
Defined.

Lemma get_then_set_status_led_writes_back_witness :
  get_status_led world_at_boot = Returned ("STATUS_LED_COLOR_OFF", world_at_boot)
  ∧ "STATUS_LED_COLOR_OFF" ≠ "UNKNOWN"
  ∧ ∃ text,
      read_txt_file (env world_at_boot) SYSLED_FNODE = Some text
      ∧ set_status_led "STATUS_LED_COLOR_OFF" world_at_boot
        = (let (e, ok) := write_txt_file (env world_at_boot) SYSLED_FNODE text in
           Returned (ok, with_env world_at_boot e)).
Proof.
  assert (get_status_led world_at_boot
          = Returned ("STATUS_LED_COLOR_OFF", world_at_boot)) as Hget by reflexivity.
  assert ("STATUS_LED_COLOR_OFF" ≠ "UNKNOWN") as Hknown by discriminate.
  split; [exact Hget | split; [exact Hknown |]].
  exact (get_then_set_status_led_writes_back "STATUS_LED_COLOR_OFF" world_at_boot
           Hget Hknown).
Defined.

Lemma get_port_or_cage_type_bits_set_witness :
  ∃ mask,
    get_port_or_cage_type 3 world_at_boot = Returned (mask, world_at_boot)
    ∧ Forall (λ bit, Z.land mask bit = bit) [0x10; 0x40; 0x80; 0x800; 0x1000].
Proof.
  destruct (get_port_or_cage_type_bits_set 3 world_at_boot) as (mask & Hret & Hq & _).
  exists mask. split; [exact Hret |]. apply Hq. lia.
Defined.

Lemma identity_fields_from_construction_eeprom_witness :
  Reachable files_at_boot world_led_red
  ∧ get_name world_led_red = Returned ("AS9817-64O", world_led_red)
  ∧ get_model world_led_red = Returned ("FP5ZZ9817000A", world_led_red).
Proof.
  pose proof world_led_red_reachable as Hw.
  split; [exact Hw |].
  destruct (identity_fields_from_construction_eeprom files_at_boot world_led_red Hw)
    as (Hname & _ & Hmodel & _).
  split; [exact Hname | exact Hmodel].
Defined.

Lemma get_change_event_polls_notifier_witness :
  Reachable files_at_boot world_at_boot
  ∧ length (_sfp_list (self world_at_boot)) = 66%nat
  ∧ ∃ e ev,
      get_sfp_event (env world_at_boot) (_sfp_list (self world_at_boot)) 1000 = (e, ev)
      ∧ get_change_event 1000 world_at_boot
        = Returned (ev, {| self := self world_at_boot; env := e;
                           stderr := stderr world_at_boot |}).
Proof.
  pose proof world_at_boot_reachable as Hw.
  split; [exact Hw |].
  exact (get_change_event_polls_notifier files_at_boot world_at_boot 1000 Hw).
Defined.

Lemma call_frame_witness :
  Reachable files_at_boot world_at_boot
  ∧ call (Call_set_status_led "STATUS_LED_COLOR_RED") world_at_boot
    = Returned (V_bool true, world_led_red)
  ∧ self world_led_red = self world_at_boot.
Proof.
  pose proof world_at_boot_reachable as Hw.
  assert (call (Call_set_status_led "STATUS_LED_COLOR_RED") world_at_boot
          = Returned (V_bool true, world_led_red)) as Hcall by reflexivity.
  split; [exact Hw | split; [exact Hcall |]].
  exact (proj1 (call_frame files_at_boot world_at_boot
                  (Call_set_status_led "STATUS_LED_COLOR_RED") (V_bool true)
                  world_led_red Hw Hcall)).
Defined.

Lemma SYSLED_MODES_lookups_inverse_witness :
  find_mode SYSLED_MODES "STATUS_LED_COLOR_RED" None = Some "10"
  ∧ dict_get SYSLED_MODES "10" = Some "STATUS_LED_COLOR_RED".
Proof.
  assert (find_mode SYSLED_MODES "STATUS_LED_COLOR_RED" None = Some "10") as Hfind
    by reflexivity.
  split; [exact Hfind |].
  exact (proj1 (SYSLED_MODES_lookups_inverse "10" "STATUS_LED_COLOR_RED") Hfind).
Defined.

Lemma set_status_led_True_means_written_witness :
  ∃ mode,
    dict_get SYSLED_MODES mode = Some "STATUS_LED_COLOR_RED"
    ∧ write_txt_file (env world_at_boot) SYSLED_FNODE mode = (env world_led_red, true).
Proof.
  destruct (set_status_led_True_means_written "STATUS_LED_COLOR_RED" world_at_boot)
    as (ok & w' & Hret & _ & _ & Hwritten).
  assert (set_status_led "STATUS_LED_COLOR_RED" world_at_boot
          = Returned (true, world_led_red)) as Hrun by reflexivity.
  rewrite Hrun in Hret. injection Hret as <- <-.
  exact (Hwritten eq_refl).
Defined.
